(** * The model trade renderer

    A shallow embedding of
    [frontend/src/components/valuecell/renderer/model-trade-renderer.tsx]:
    the function component [ModelTradeRenderer], the element tree it
    returns, and the [memo] wrapper it is exported through.

    The component calls [parse] of the package [best-effort-json-parser]
    twice.  That package is a dependency, not part of the component: the
    parser is a parameter of the development, and every property of the
    component is stated for an arbitrary parser, with what it needs from
    the parser as a hypothesis. *)

From Stdlib Require Import ZArith String Ascii List Bool.
From Stdlib Require Import PrimFloat SpecFloat FloatOps.
From stdpp Require Import gmap strings list fin_maps.

Local Open Scope string_scope.
Local Open Scope list_scope.

(** * Values *)

(** What a variable of type [any] can hold once it comes out of a JSON
    decoder.  A number is a binary64 float, as in the language; an object
    is a finite map from property names to values. *)
#[warnings="-register-all"]
Inductive JsValue : Type :=
  | JsUndefined
  | JsNull
  | JsBool (b : bool)
  | JsNumber (x : float)
  | JsString (s : string)
  | JsArray (items : list JsValue)
  | JsObject (props : gmap string JsValue).

(** * Completions *)

(** What can be thrown.  [TypeError] is the error of the language itself
    (destructuring [null], calling a method that is absent);
    [SyntaxError] is what a strict JSON decoder throws; [ErrorValue] is
    any other thrown value. *)
Inductive JsError : Type :=
  | TypeError
  | SyntaxError
  | ErrorValue (v : JsValue).

(** A call either returns normally or throws. *)
Inductive Completion (A : Type) : Type :=
  | Normal (a : A)
  | Throw (e : JsError).

Arguments Normal {A} a.
Arguments Throw {A} e.

Definition bind {A B : Type} (c : Completion A) (k : A -> Completion B)
  : Completion B :=
  match c with
  | Normal a => k a
  | Throw e => Throw e
  end.

Notation "'let*' x ':=' c 'in' k" := (bind c (fun x => k))
  (at level 10, x pattern, c at level 100, k at level 200).

Definition returns {A : Type} (c : Completion A) : Prop :=
  exists a, c = Normal a.

(** * Property access and destructuring *)

(** [v.k] for a key [k] that no built-in prototype defines and that is
    neither an index nor ["length"]; ["title"] and ["data"], the only keys
    the component reads, are such keys.  A primitive, an array or an
    object without the property gives [undefined]. *)
Definition get_field (v : JsValue) (k : string) : JsValue :=
  match v with
  | JsObject props => default JsUndefined (props !! k)
  | _ => JsUndefined
  end.

(** [const { title, data } = v]: the pattern first requires [v] to be
    coercible to an object, which [null] and [undefined] are not. *)
Definition destructure_title_data (v : JsValue)
  : Completion (JsValue * JsValue) :=
  match v with
  | JsUndefined | JsNull => Throw TypeError
  | _ => Normal (get_field v "title", get_field v "data")
  end.

(** * Element trees *)

(** What a JSX expression evaluates to: a host element with its
    [className] and children, a run of JSX text, a [{expression}] child,
    or an element of a component with its props in the order written. *)
#[warnings="-register-all"]
Inductive ReactNode : Type :=
  | Element (tag : string) (className : string) (children : list ReactNode)
  | Text (s : string)
  | Child (v : JsValue)
  | Component (name : string) (props : list (string * JsValue)).

(** The three characters the source file holds in the second disclaimer
    line between "caution" and "markets", byte for byte (the UTF-8
    encoding of U+00E2 U+20AC U+201D). *)
Definition caution_dash : string :=
  string_of_list_ascii
    (List.map ascii_of_nat (195 :: 162 :: 226 :: 130 :: 172 :: 226 :: 128 :: 157 :: nil))%nat.

Definition disclaimer_heading : string := "Disclaimer & Tool Reminder:".

Definition disclaimer_line_1 : string :=
  "1. The AI tools are for simulation only and do not provide investment advice".

Definition disclaimer_line_2 : string :=
  ("2. The tools may contain errors or delays and cannot account for all market factors. You are solely responsible for your trading decisions. Use caution "
   ++ caution_dash ++ " markets involve risk.")%string.

(** The lower region of the component: a caption and the two lines. *)
Definition disclaimer_block : ReactNode :=
  Element "div" "flex w-full flex-col gap-4"
    [ Element "p" "font-medium text-gray-950 text-sm" [Text disclaimer_heading];
      Element "div" "flex w-full flex-col gap-2 text-gray-700 text-xs"
        [ Element "p" "w-full" [Text disclaimer_line_1];
          Element "p" "w-full" [Text disclaimer_line_2] ] ].

(** [<MultiLineChart data={parsedData} height={"90%"} />] *)
Definition chart_element (parsedData : JsValue) : ReactNode :=
  Component "MultiLineChart"
    [ ("data", parsedData); ("height", JsString "90%") ].

(** The [return ( ... )] of the component. *)
Definition view (title parsedData : JsValue) : ReactNode :=
  Element "div" "flex size-full flex-col justify-between gap-3 px-2 py-6"
    [ Element "div" "flex flex-1 flex-col gap-6"
        [ Element "h3" "font-semibold text-base text-gray-950" [Child title];
          chart_element parsedData ];
      disclaimer_block ].

(** ** Reading a tree back *)

(** The nodes of a tree that satisfy [p], in document order. *)
Fixpoint select (p : ReactNode -> bool) (n : ReactNode) : list ReactNode :=
  (if p n then [n] else []) ++
  match n with
  | Element _ _ children =>
      (fix over (cs : list ReactNode) : list ReactNode :=
         match cs with
         | [] => []
         | c :: cs' => select p c ++ over cs'
         end) children
  | _ => []
  end.

Definition has_tag (t : string) (n : ReactNode) : bool :=
  match n with
  | Element tag _ _ => String.eqb tag t
  | _ => false
  end.

Definition is_component (c : string) (n : ReactNode) : bool :=
  match n with
  | Component name _ => String.eqb name c
  | _ => false
  end.

Definition children_of (n : ReactNode) : list ReactNode :=
  match n with
  | Element _ _ children => children
  | _ => []
  end.

(** The children of the [h3] elements: what the heading displays. *)
Definition heading (out : ReactNode) : list ReactNode :=
  concat (List.map children_of (select (has_tag "h3") out)).

(** The props of every [MultiLineChart] element of the tree. *)
Definition chart_props (out : ReactNode) : list (list (string * JsValue)) :=
  flat_map (fun n => match n with Component _ props => [props] | _ => [] end)
           (select (is_component "MultiLineChart") out).

(** First binding of a prop name. *)
Fixpoint prop (k : string) (props : list (string * JsValue)) : option JsValue :=
  match props with
  | [] => None
  | (k', v) :: rest => if String.eqb k' k then Some v else prop k rest
  end.

(** The lower region: the last child of the root. *)
Definition disclaimer_region (out : ReactNode) : option ReactNode :=
  last (children_of out).

(** The text of the paragraphs of a region, in order. *)
Definition paragraphs (n : ReactNode) : list (list ReactNode) :=
  List.map children_of (select (has_tag "p") n).

(** The text of the paragraphs below the caption of the lower region. *)
Definition disclaimer_lines (out : ReactNode) : list (list ReactNode) :=
  match disclaimer_region out with
  | Some region =>
      match last (children_of region) with
      | Some lines => paragraphs lines
      | None => []
      end
  | None => []
  end.

(** * The component *)

(** Modelled from the spec: [ModelTradeRendererProps] is declared in
    [@/types/renderer], which is not among the sources at hand.  The spec
    gives the props as [content], a string, and an optional [height]; the
    example in the doc comment of the component passes both.  The type of
    [height] is left open, and [None] is a render without the prop. *)
Record ModelTradeRendererProps (Height : Type) : Type := {
  content : string;
  height : option Height
}.

Arguments content {Height} _.
Arguments height {Height} _.

Section Renderer.

Context {Height : Type} `{EqDecision Height}.

(** [parse] of [best-effort-json-parser].  The component calls it on a
    string and then on a value of type [any]; a call either returns a
    value or throws. *)
Variable parse : JsValue -> Completion JsValue.

(** The function component.  The parameter pattern [({ content })]
    binds [content] and nothing else. *)
Definition ModelTradeRenderer (props : ModelTradeRendererProps Height)
  : Completion ReactNode :=
  let* envelope := parse (JsString (content props)) in
  let* (title, data) := destructure_title_data envelope in
  let* parsedData := parse data in
  Normal (view title parsedData).

(** ** The [memo] wrapper *)

(** What the wrapper remembers: the props and the output of the last
    render that returned.  A render that throws leaves nothing mounted. *)
Definition MemoState : Type :=
  option (ModelTradeRendererProps Height * ReactNode).

(** Shallow comparison of two props objects: the same keys, and each
    value the same. *)
Definition shallow_equal (p q : ModelTradeRendererProps Height) : bool :=
  bool_decide (content p = content q) && bool_decide (height p = height q).

(** The outcome of one pass: what is shown, what is remembered, and
    whether the wrapped component was called. *)
Record Pass : Type := {
  shown : Completion ReactNode;
  remembered : MemoState;
  called : bool
}.

Definition call_through
    (component : ModelTradeRendererProps Height -> Completion ReactNode)
    (props : ModelTradeRendererProps Height) : Pass :=
  match component props with
  | Normal out =>
      {| shown := Normal out; remembered := Some (props, out); called := true |}
  | Throw e =>
      {| shown := Throw e; remembered := None; called := true |}
  end.

(** Modelled from the spec: [memo] belongs to the UI framework, which is
    not among the sources at hand.  The spec describes it as a
    memoization that skips the render when the props are unchanged by
    shallow comparison, so that the previous output stays. *)
Definition memo
    (component : ModelTradeRendererProps Height -> Completion ReactNode)
    (st : MemoState) (props : ModelTradeRendererProps Height) : Pass :=
  match st with
  | Some (prev, out) =>
      if shallow_equal prev props
      then {| shown := Normal out; remembered := st; called := false |}
      else call_through component props
  | None => call_through component props
  end.

(** [export default memo(ModelTradeRenderer)] *)
Definition exported : MemoState -> ModelTradeRendererProps Height -> Pass :=
  memo ModelTradeRenderer.

(** A sequence of passes of the mounted component, from a given state:
    the outputs shown, in order, and the number of calls of the wrapped
    component. *)
Fixpoint passes (st : MemoState) (ps : list (ModelTradeRendererProps Height))
  : list (Completion ReactNode) * nat :=
  match ps with
  | [] => ([], 0)
  | p :: rest =>
      let r := exported st p in
      let '(outs, calls) := passes (remembered r) rest in
      (shown r :: outs, (if called r then 1 else 0) + calls)
  end.

(** What the spec asks of the parser: it never throws. *)
Definition tolerant : Prop := forall v, returns (parse v).

End Renderer.

(** * A parser to run the component with *)

(** Modelled from the spec: the package [best-effort-json-parser] is not
    among the sources at hand.  The component is stated for every parser;
    to evaluate it on concrete payloads one parser is fixed here, after
    the contract the spec gives: it never throws, and on an unfinished or
    malformed text it answers with the deepest prefix it could read.
    [Lenient.parse] decodes a JSON text as a strict decoder does, and
    stops at the first character it cannot use or at the end of the
    text.  It stands in for the parser of the package and is not a
    transcription of it. *)
Module Lenient.

Definition code (c : ascii) : Z := Z.of_N (N_of_ascii c).

Definition chr (n : Z) : ascii := ascii_of_N (Z.to_N n).

Definition is_space (c : ascii) : bool :=
  let n := code c in
  (n =? 32)%Z || (n =? 9)%Z || (n =? 10)%Z || (n =? 13)%Z.

Fixpoint skip_space (s : list ascii) : list ascii :=
  match s with
  | c :: r => if is_space c then skip_space r else s
  | [] => []
  end.

Definition digit_of (c : ascii) : option Z :=
  let n := code c in
  if (48 <=? n)%Z && (n <=? 57)%Z then Some (n - 48)%Z else None.

Definition hex_of (c : ascii) : option Z :=
  let n := code c in
  if (48 <=? n)%Z && (n <=? 57)%Z then Some (n - 48)%Z
  else if (65 <=? n)%Z && (n <=? 70)%Z then Some (n - 55)%Z
  else if (97 <=? n)%Z && (n <=? 102)%Z then Some (n - 87)%Z
  else None.

(** A run of decimal digits: the number read onto [acc], how many
    digits, and the rest. *)
Fixpoint digits (acc count : Z) (s : list ascii) : Z * Z * list ascii :=
  match s with
  | c :: r =>
      match digit_of c with
      | Some d => digits (10 * acc + d)%Z (count + 1)%Z r
      | None => (acc, count, s)
      end
  | [] => (acc, count, [])
  end.

(** The binary64 float nearest to [m * 10 ^ e], ties to even.  A
    negative [e] divides with a sticky bit kept below 64 significant
    bits and below the smallest subnormal, so one rounding decides. *)
Definition decimal (negative : bool) (m e : Z) : float :=
  let sign := if negative then (-1)%Z else 1%Z in
  if (m =? 0)%Z then SF2Prim (S754_zero negative)
  else if (0 <=? e)%Z then
    SF2Prim (binary_normalize prec emax (sign * m * 10 ^ Z.min e 400) 0 false)
  else
    let d := (10 ^ Z.min (- e) (Z.log2 m + 400))%Z in
    let k := Z.max 1100 (70 + Z.log2 d - Z.log2 m) in
    let q := (m * 2 ^ k / d)%Z in
    let sticky := if (m * 2 ^ k mod d =? 0)%Z then 0%Z else 1%Z in
    SF2Prim (binary_normalize prec emax (sign * (2 * q + sticky)) (- k - 1) false).

(** [-? digits (. digits)? ([eE] [+-]? digits)?] *)
Definition number (s : list ascii) : option (float * list ascii) :=
  let '(negative, s1) :=
    match s with
    | "-"%char :: r => (true, r)
    | _ => (false, s)
    end in
  let '(m, n, s2) := digits 0 0 s1 in
  if (n =? 0)%Z then None
  else
    let '(m, frac, s3) :=
      match s2 with
      | "."%char :: r =>
          let '(m', nf, r') := digits m 0 r in
          if (nf =? 0)%Z then (m, 0%Z, s2) else (m', nf, r')
      | _ => (m, 0%Z, s2)
      end in
    let '(ex, s4) :=
      match s3 with
      | c :: r =>
          if (code c =? 101)%Z || (code c =? 69)%Z then
            let '(minus, r1) :=
              match r with
              | "-"%char :: r' => (true, r')
              | "+"%char :: r' => (false, r')
              | _ => (false, r)
              end in
            let '(x, nx, r2) := digits 0 0 r1 in
            if (nx =? 0)%Z then (0%Z, s3)
            else ((if minus then - x else x)%Z, r2)
          else (0%Z, s3)
      | [] => (0%Z, s3)
      end in
    Some (decimal negative m (ex - frac), s4).

(** UTF-8 of a code point (a lone surrogate is encoded like any other
    three-byte code point). *)
Definition utf8 (cp : Z) : list ascii :=
  if (cp <? 128)%Z then [chr cp]
  else if (cp <? 2048)%Z then
    [chr (192 + cp / 64); chr (128 + cp mod 64)]
  else if (cp <? 65536)%Z then
    [chr (224 + cp / 4096); chr (128 + cp / 64 mod 64); chr (128 + cp mod 64)]
  else
    [chr (240 + cp / 262144); chr (128 + cp / 4096 mod 64);
     chr (128 + cp / 64 mod 64); chr (128 + cp mod 64)].

(** Four hexadecimal digits. *)
Definition hex4 (s : list ascii) : option (Z * list ascii) :=
  match s with
  | a :: b :: c :: d :: r =>
      match hex_of a, hex_of b, hex_of c, hex_of d with
      | Some x, Some y, Some z, Some w =>
          Some (4096 * x + 256 * y + 16 * z + w, r)%Z
      | _, _, _, _ => None
      end
  | _ => None
  end.

(** The body of a string literal after its opening quote, up to the
    closing quote or the end of the text. *)
Fixpoint string_body (fuel : nat) (acc : list ascii) (s : list ascii)
  : string * list ascii :=
  match fuel with
  | O => (string_of_list_ascii (rev acc), [])
  | S fuel' =>
      match s with
      | [] => (string_of_list_ascii (rev acc), [])
      | c :: r =>
          if (code c =? 34)%Z then (string_of_list_ascii (rev acc), r)
          else if (code c =? 92)%Z then
            match r with
            | [] => (string_of_list_ascii (rev acc), [])
            | e :: r' =>
                let n := code e in
                if (n =? 98)%Z then string_body fuel' (chr 8 :: acc) r'
                else if (n =? 102)%Z then string_body fuel' (chr 12 :: acc) r'
                else if (n =? 110)%Z then string_body fuel' (chr 10 :: acc) r'
                else if (n =? 114)%Z then string_body fuel' (chr 13 :: acc) r'
                else if (n =? 116)%Z then string_body fuel' (chr 9 :: acc) r'
                else if (n =? 117)%Z then
                  match hex4 r' with
                  | None => (string_of_list_ascii (rev acc), [])
                  | Some (hi, r1) =>
                      let pair :=
                        if (55296 <=? hi)%Z && (hi <=? 56319)%Z then
                          match r1 with
                          | b :: u :: r2 =>
                              if (code b =? 92)%Z && (code u =? 117)%Z then
                                match hex4 r2 with
                                | Some (lo, r3) =>
                                    if (56320 <=? lo)%Z && (lo <=? 57343)%Z
                                    then Some (65536 + 1024 * (hi - 55296)
                                               + (lo - 56320), r3)%Z
                                    else None
                                | None => None
                                end
                              else None
                          | _ => None
                          end
                        else None in
                      match pair with
                      | Some (cp, r3) =>
                          string_body fuel' (rev (utf8 cp) ++ acc) r3
                      | None => string_body fuel' (rev (utf8 hi) ++ acc) r1
                      end
                  end
                else string_body fuel' (e :: acc) r'
            end
          else string_body fuel' (c :: acc) r
      end
  end.

Fixpoint starts_with (w s : list ascii) : option (list ascii) :=
  match w, s with
  | [], _ => Some s
  | a :: w', b :: s' => if Ascii.eqb a b then starts_with w' s' else None
  | _ :: _, [] => None
  end.

(** One value, the elements of an open array, the members of an open
    object.  Each answers with what it read and the rest of the text;
    after anything unusable the rest is empty, which closes every
    construct still open. *)
Fixpoint value (fuel : nat) (s : list ascii) {struct fuel}
  : option JsValue * list ascii :=
  match fuel with
  | O => (None, [])
  | S fuel' =>
      match skip_space s with
      | [] => (None, [])
      | c :: r =>
          if (code c =? 123)%Z then
            let '(m, rest) := members fuel' ∅ r in (Some (JsObject m), rest)
          else if (code c =? 91)%Z then
            let '(items, rest) := elements fuel' [] r in
            (Some (JsArray items), rest)
          else if (code c =? 34)%Z then
            let '(str, rest) := string_body (length r) [] r in
            (Some (JsString str), rest)
          else
            match starts_with (list_ascii_of_string "true") (c :: r),
                  starts_with (list_ascii_of_string "false") (c :: r),
                  starts_with (list_ascii_of_string "null") (c :: r) with
            | Some rest, _, _ => (Some (JsBool true), rest)
            | _, Some rest, _ => (Some (JsBool false), rest)
            | _, _, Some rest => (Some JsNull, rest)
            | None, None, None =>
                match number (c :: r) with
                | Some (x, rest) => (Some (JsNumber x), rest)
                | None => (None, [])
                end
            end
      end
  end
with elements (fuel : nat) (acc : list JsValue) (s : list ascii) {struct fuel}
  : list JsValue * list ascii :=
  match fuel with
  | O => (rev acc, [])
  | S fuel' =>
      match skip_space s with
      | [] => (rev acc, [])
      | c :: r =>
          if (code c =? 93)%Z then (rev acc, r)
          else if (code c =? 44)%Z then elements fuel' acc r
          else
            match value fuel' (c :: r) with
            | (Some v, rest) => elements fuel' (v :: acc) rest
            | (None, _) => (rev acc, [])
            end
      end
  end
with members (fuel : nat) (m : gmap string JsValue) (s : list ascii)
    {struct fuel} : gmap string JsValue * list ascii :=
  match fuel with
  | O => (m, [])
  | S fuel' =>
      match skip_space s with
      | [] => (m, [])
      | c :: r =>
          if (code c =? 125)%Z then (m, r)
          else if (code c =? 44)%Z then members fuel' m r
          else if (code c =? 34)%Z then
            let '(k, r1) := string_body (length r) [] r in
            match skip_space r1 with
            | c1 :: r2 =>
                if (code c1 =? 58)%Z then
                  match value fuel' r2 with
                  | (Some v, rest) => members fuel' (<[k := v]> m) rest
                  | (None, _) => (m, [])
                  end
                else (m, [])
            | [] => (m, [])
            end
          else (m, [])
      end
  end.

(** The entry point.  A non-empty string is decoded, and is [undefined]
    when nothing in it can be used; any other value, [undefined] and
    [null] among them, is answered as it is.  No input makes it throw. *)
Definition parse (v : JsValue) : Completion JsValue :=
  match v with
  | JsString EmptyString => Normal v
  | JsString s =>
      let text := list_ascii_of_string s in
      Normal (default JsUndefined (fst (value (2 * length text + 2) text)))
  | _ => Normal v
  end.

End Lenient.

(** ** Writing payloads *)

(** JSON texts are written here with apostrophes where the text has
    double quotes; [json] puts the double quotes back. *)
Definition json (s : string) : string :=
  string_of_list_ascii
    (List.map (fun c => if Ascii.eqb c "'"%char then ascii_of_nat 34 else c)
              (list_ascii_of_string s)).

(** The example of the spec: an envelope whose [data] is itself a JSON
    text. *)
Definition table_text : string := json "[['Time','A'],['2024-01',1]]".

Definition example_content : string :=
  json "{'title':'T','data':'[[\'Time\',\'A\'],[\'2024-01\',1]]'}".

Definition example_dataset : JsValue :=
  JsArray [ JsArray [JsString "Time"; JsString "A"];
            JsArray [JsString "2024-01"; JsNumber 1%float] ].

(** The same envelope with the timestamp of the doc comment, and with
    another one. *)
Definition stamped_content : string :=
  json "{'title':'T','data':'[[\'Time\',\'A\'],[\'2024-01\',1]]','create_time':'2025-10-21 02:57:22'}".

Definition restamped_content : string :=
  json "{'title':'T','data':'[[\'Time\',\'A\'],[\'2024-01\',1]]','create_time':'2025-10-22 11:00:00'}".

(** An envelope cut off while [data] was being written, one without
    [data], one cut off before [title], and the text [null]. *)
Definition truncated_content : string :=
  json "{'title':'T','data':'[[\'Time\',\'A\'],[\'2024-".

(** What is left of the table in [truncated_content]. *)
Definition truncated_dataset : JsValue :=
  JsArray [ JsArray [JsString "Time"; JsString "A"];
            JsArray [JsString "2024-"] ].


Definition no_title_content : string := json "{'ti".

Definition null_content : string := "null".

Definition props_of (c : string) : ModelTradeRendererProps Z :=
  {| content := c; height := None |}.

(** The render of the doc comment of the component, with [height={400}]. *)
Definition sized_props (c : string) : ModelTradeRendererProps Z :=
  {| content := c; height := Some 400%Z |}.

(** The envelope of the example with its fields in another order and
    two fields the component does not read; the same envelope under
    another title; and a text that is not an envelope at all. *)
Definition crowded_content : string :=
  json "{'unit':'USD','data':'[[\'Time\',\'A\'],[\'2024-01\',1]]','create_time':'2025-10-21 02:57:22','title':'T'}".

Definition retitled_content : string :=
  json "{'title':'Portfolio Value History','data':'[[\'Time\',\'A\'],[\'2024-01\',1]]'}".

(** What the two parse to. *)
Definition example_envelope : JsValue :=
  JsObject (<["title" := JsString "T"]> (<["data" := JsString table_text]> ∅)).

Definition retitled_envelope : JsValue :=
  JsObject (<["title" := JsString "Portfolio Value History"]>
              (<["data" := JsString table_text]> ∅)).

Definition array_content : string := "[1,2]".

(** * Properties of the element tree *)

Lemma heading_view (title parsedData : JsValue) :
  heading (view title parsedData) = [Child title].
Proof. reflexivity. Qed.

Lemma chart_props_view (title parsedData : JsValue) :
  chart_props (view title parsedData)
  = [[("data", parsedData); ("height", JsString "90%")]].
Proof. reflexivity. Qed.

Lemma disclaimer_region_view (title parsedData : JsValue) :
  disclaimer_region (view title parsedData) = Some disclaimer_block.
Proof. reflexivity. Qed.

Lemma destructure_ok (v : JsValue) :
  v <> JsUndefined -> v <> JsNull ->
  destructure_title_data v = Normal (get_field v "title", get_field v "data").
Proof. destruct v; intros; simpl; congruence. Qed.

Lemma destructure_nullish (v : JsValue) :
  v = JsUndefined \/ v = JsNull -> destructure_title_data v = Throw TypeError.
Proof. intros [-> | ->]; reflexivity. Qed.

Lemma destructure_inv (v title data : JsValue) :
  destructure_title_data v = Normal (title, data) ->
  v <> JsUndefined /\ v <> JsNull /\
  title = get_field v "title" /\ data = get_field v "data".
Proof.
  destruct v; simpl; intros E; try discriminate;
    injection E as <- <-; repeat split; discriminate.
Qed.

(** * Properties of the component *)

Section RendererFacts.

Context {Height : Type}.
Variable parse : JsValue -> Completion JsValue.

Abbreviation render := (@ModelTradeRenderer Height parse).

(** The component on an envelope that can be destructured. *)
Lemma render_envelope (props : ModelTradeRendererProps Height) (envelope : JsValue) :
  parse (JsString (content props)) = Normal envelope ->
  envelope <> JsUndefined -> envelope <> JsNull ->
  render props
  = bind (parse (get_field envelope "data"))
         (fun parsedData => Normal (view (get_field envelope "title") parsedData)).
Proof.
  intros Hp Hu Hn. unfold ModelTradeRenderer.
  rewrite Hp. simpl. rewrite (destructure_ok envelope Hu Hn). reflexivity.
Qed.

(** Every tree the component returns is [view] of the two values it
    extracted, and both parse steps returned. *)
Lemma render_normal_inv (props : ModelTradeRendererProps Height) (out : ReactNode) :
  render props = Normal out ->
  exists envelope parsedData,
    parse (JsString (content props)) = Normal envelope /\
    envelope <> JsUndefined /\ envelope <> JsNull /\
    parse (get_field envelope "data") = Normal parsedData /\
    out = view (get_field envelope "title") parsedData.
Proof.
  unfold ModelTradeRenderer.
  destruct (parse (JsString (content props))) as [envelope | e] eqn:Hp;
    simpl; [| discriminate].
  destruct (destructure_title_data envelope) as [[title data] | e] eqn:Hd;
    simpl; [| discriminate].
  apply destructure_inv in Hd as (Hu & Hn & -> & ->).
  destruct (parse (get_field envelope "data")) as [parsedData | e] eqn:Hq;
    simpl; [| discriminate].
  intros [= <-]. exists envelope, parsedData. auto.
Qed.

(** The component reads [content] and nothing else of its props. *)
Lemma render_content_only (p q : ModelTradeRendererProps Height) :
  content p = content q -> render p = render q.
Proof. unfold ModelTradeRenderer. intros ->. reflexivity. Qed.

End RendererFacts.

(** * Properties of the [memo] wrapper *)

Section MemoFacts.

Context {Height : Type} `{EqDecision Height}.
Variable parse : JsValue -> Completion JsValue.

Abbreviation component := (@ModelTradeRenderer Height parse).

Lemma shallow_equal_eq (p q : ModelTradeRendererProps Height) :
  shallow_equal p q = true -> p = q.
Proof.
  unfold shallow_equal. intros Hb.
  apply andb_true_iff in Hb as [Hc Hh].
  apply bool_decide_eq_true in Hc. apply bool_decide_eq_true in Hh.
  destruct p, q; simpl in *; congruence.
Qed.

Lemma shallow_equal_refl (p : ModelTradeRendererProps Height) :
  shallow_equal p p = true.
Proof.
  unfold shallow_equal. apply andb_true_iff.
  split; apply bool_decide_eq_true; reflexivity.
Qed.

(** What the wrapper remembers is a render of the wrapped component. *)
Definition faithful (st : @MemoState Height) : Prop :=
  forall prev out, st = Some (prev, out) -> component prev = Normal out.

Lemma faithful_none : faithful None.
Proof. intros prev out E. discriminate. Qed.

Lemma call_through_shown (props : ModelTradeRendererProps Height) :
  shown (call_through component props) = component props.
Proof. unfold call_through. destruct (component props); reflexivity. Qed.

Lemma call_through_faithful (props : ModelTradeRendererProps Height) :
  faithful (remembered (call_through component props)).
Proof.
  unfold call_through.
  destruct (component props) as [out | e] eqn:E; simpl.
  - intros prev out' [= <- <-]. exact E.
  - apply faithful_none.
Qed.

(** One pass shows what the wrapped component returns on the props of
    that pass, and keeps the memory faithful. *)
Lemma exported_pass (st : @MemoState Height) (props : ModelTradeRendererProps Height) :
  faithful st ->
  shown (exported parse st props) = component props /\
  faithful (remembered (exported parse st props)).
Proof.
  intros Hst. unfold exported, memo.
  destruct st as [[prev out] |].
  - destruct (shallow_equal prev props) eqn:Hs.
    + apply shallow_equal_eq in Hs. subst prev. simpl.
      split; [symmetry; apply Hst; reflexivity | exact Hst].
    + split; [apply call_through_shown | apply call_through_faithful].
  - split; [apply call_through_shown | apply call_through_faithful].
Qed.

Lemma passes_shown (ps : list (ModelTradeRendererProps Height)) :
  forall st, faithful st -> fst (passes parse st ps) = List.map component ps.
Proof.
  induction ps as [| p rest IH]; intros st Hst; simpl; [reflexivity |].
  destruct (exported_pass st p Hst) as [Hshown Hmem].
  specialize (IH _ Hmem).
  destruct (passes parse (remembered (exported parse st p)) rest) as [outs calls].
  simpl in *. rewrite Hshown, IH. reflexivity.
Qed.

Lemma passes_calls (ps : list (ModelTradeRendererProps Height)) :
  forall st, snd (passes parse st ps) <= length ps.
Proof.
  induction ps as [| p rest IH]; intros st; simpl; [lia |].
  specialize (IH (remembered (exported parse st p))).
  destruct (passes parse (remembered (exported parse st p)) rest) as [outs calls].
  simpl in *. destruct (called (exported parse st p)); lia.
Qed.

(** A pass with the props of the previous pass does not call the
    wrapped component. *)
Lemma exported_skips (props : ModelTradeRendererProps Height) (out : ReactNode) :
  called (exported parse (Some (props, out)) props) = false.
Proof. unfold exported, memo. rewrite shallow_equal_refl. reflexivity. Qed.

End MemoFacts.

(** * Properties of the parser the payloads are run with *)

Lemma lenient_tolerant : tolerant Lenient.parse.
Proof.
  intros v. unfold returns, Lenient.parse.
  destruct v as [| | b | x | s | items | props]; try (eexists; reflexivity).
  destruct s; eexists; reflexivity.
Qed.

(** * The payloads, run *)

Example example_render :
  ModelTradeRenderer Lenient.parse (props_of example_content)
  = Normal (view (JsString "T") example_dataset).
Proof. vm_compute. reflexivity. Qed.

Example truncated_render :
  ModelTradeRenderer Lenient.parse (props_of truncated_content)
  = Normal (view (JsString "T") truncated_dataset).
Proof. vm_compute. reflexivity. Qed.

Example no_title_render :
  ModelTradeRenderer Lenient.parse (props_of no_title_content)
  = Normal (view JsUndefined JsUndefined).
Proof. vm_compute. reflexivity. Qed.

Example null_render :
  ModelTradeRenderer Lenient.parse (props_of null_content) = Throw TypeError.
Proof. vm_compute. reflexivity. Qed.

(** Of three passes, the second repeats the props of the first and is
    answered from memory. *)
Example repeated_pass_skipped :
  snd (passes Lenient.parse None
         [sized_props example_content; sized_props example_content;
          props_of example_content]) = 2.
Proof. vm_compute. reflexivity. Qed.

(** * The claims *)

(** C1.  When the content parses to an envelope with a [title] and a
    [data] that is a string, the component returns a tree whose heading
    displays the title and whose chart is given, as its dataset, the
    result of parsing the [data] string a second time. *)
Theorem C1_double_parse {Height : Type}
    (parse : JsValue -> Completion JsValue)
    (props : ModelTradeRendererProps Height)
    (envelope : gmap string JsValue) (title : JsValue) (text : string)
    (dataset : JsValue) :
  parse (JsString (content props)) = Normal (JsObject envelope) ->
  envelope !! "title" = Some title ->
  envelope !! "data" = Some (JsString text) ->
  parse (JsString text) = Normal dataset ->
  exists out,
    ModelTradeRenderer parse props = Normal out /\
    heading out = [Child title] /\
    List.map (prop "data") (chart_props out) = [Some dataset].
Proof.
  intros Hp Ht Hd Hq.
  exists (view title dataset).
  rewrite (render_envelope parse props (JsObject envelope) Hp) by discriminate.
  simpl. rewrite Ht, Hd. simpl. rewrite Hq. simpl.
  repeat split; reflexivity.
Qed.

(** The example of the spec, run through both parse steps: the heading is
    ["T"] and the chart receives the decoded table, not its text. *)
Lemma C1_double_parse_witness :
  exists out,
    ModelTradeRenderer Lenient.parse (props_of example_content) = Normal out /\
    heading out = [Child (JsString "T")] /\
    List.map (prop "data") (chart_props out) = [Some example_dataset].
Proof.
  apply (C1_double_parse Lenient.parse (props_of example_content)
           (<["title" := JsString "T"]> (<["data" := JsString table_text]> ∅))
           (JsString "T") table_text example_dataset);
    vm_compute; reflexivity.
Defined.

(** C2, as the spec states it, fails: a parser that never throws still
    answers [null] on the text [null], and destructuring [null] throws. *)
Lemma C2_every_string_counterexample :
  ~ (forall (parse : JsValue -> Completion JsValue)
            (props : ModelTradeRendererProps Z),
        tolerant parse -> returns (ModelTradeRenderer parse props)).
Proof.
  intros claim.
  destruct (claim Lenient.parse (props_of null_content) lenient_tolerant)
    as [out E].
  vm_compute in E. discriminate E.
Qed.

(** C2, amended.  With a parser that never throws, the component returns
    a tree on every content string, cut off, partial or malformed as it
    may be, on which the parser answers something other than [null] and
    [undefined]. *)
Theorem C2_returns_unless_nullish {Height : Type}
    (parse : JsValue -> Completion JsValue)
    (props : ModelTradeRendererProps Height) :
  tolerant parse ->
  parse (JsString (content props)) <> Normal JsNull ->
  parse (JsString (content props)) <> Normal JsUndefined ->
  returns (ModelTradeRenderer parse props).
Proof.
  intros Htol Hnull Hundef.
  destruct (Htol (JsString (content props))) as [envelope Hp].
  assert (Hu : envelope <> JsUndefined) by congruence.
  assert (Hn : envelope <> JsNull) by congruence.
  rewrite (render_envelope parse props envelope Hp Hu Hn).
  destruct (Htol (get_field envelope "data")) as [parsedData Hq].
  rewrite Hq. simpl. eexists. reflexivity.
Qed.

(** An envelope cut off in the middle of [data] still renders. *)
Lemma C2_returns_unless_nullish_witness :
  returns (ModelTradeRenderer Lenient.parse (props_of truncated_content)).
Proof.
  apply (C2_returns_unless_nullish Lenient.parse (props_of truncated_content)).
  - exact lenient_tolerant.
  - vm_compute. discriminate.
  - vm_compute. discriminate.
Defined.

(** C3.  When the parser answers [null] or [undefined] on the content,
    destructuring the envelope throws a [TypeError] and the component
    returns no tree; the text [null] is such a content. *)
Theorem C3_nullish_envelope_throws {Height : Type}
    (parse : JsValue -> Completion JsValue)
    (props : ModelTradeRendererProps Height) :
  parse (JsString (content props)) = Normal JsNull \/
  parse (JsString (content props)) = Normal JsUndefined ->
  ModelTradeRenderer parse props = Throw TypeError /\
  ~ returns (ModelTradeRenderer parse props).
Proof.
  intros Hp.
  assert (E : ModelTradeRenderer parse props = Throw TypeError).
  { unfold ModelTradeRenderer. destruct Hp as [-> | ->]; reflexivity. }
  split; [exact E |].
  rewrite E. intros [out Hout]. discriminate Hout.
Qed.

Lemma C3_nullish_envelope_throws_witness :
  Lenient.parse (JsString null_content) = Normal JsNull /\
  ModelTradeRenderer Lenient.parse (props_of null_content) = Throw TypeError /\
  ~ returns (ModelTradeRenderer Lenient.parse (props_of null_content)).
Proof.
  split; [vm_compute; reflexivity |].
  apply (C3_nullish_envelope_throws Lenient.parse (props_of null_content)).
  left. vm_compute. reflexivity.
Defined.

(** C4.  Whatever the content, the lower region of a rendered tree is the
    same fixed block, and it holds exactly the two fixed lines. *)
Theorem C4_disclaimer_fixed {Height : Type}
    (parse : JsValue -> Completion JsValue)
    (props : ModelTradeRendererProps Height) (out : ReactNode) :
  ModelTradeRenderer parse props = Normal out ->
  disclaimer_region out = Some disclaimer_block /\
  disclaimer_lines out = [[Text disclaimer_line_1]; [Text disclaimer_line_2]].
Proof.
  intros Hr.
  apply render_normal_inv in Hr as (envelope & parsedData & _ & _ & _ & _ & ->).
  split; reflexivity.
Qed.

Lemma C4_disclaimer_fixed_witness :
  disclaimer_region (view (JsString "T") example_dataset) = Some disclaimer_block /\
  disclaimer_lines (view (JsString "T") example_dataset)
  = [[Text disclaimer_line_1]; [Text disclaimer_line_2]].
Proof.
  apply (C4_disclaimer_fixed Lenient.parse (props_of example_content)).
  vm_compute. reflexivity.
Defined.

(** C5, as the spec states it, fails: no two renders that differ only in
    [height] differ in their outcome, whatever the type of the prop. *)
Lemma C5_height_forwarded_counterexample :
  ~ (exists (Height : Type) (parse : JsValue -> Completion JsValue)
            (c : string) (h1 h2 : option Height),
        ModelTradeRenderer parse {| content := c; height := h1 |}
        <> ModelTradeRenderer parse {| content := c; height := h2 |}).
Proof.
  intros (Height & parse & c & h1 & h2 & Hdiff).
  apply Hdiff. apply render_content_only. reflexivity.
Qed.

(** C5, amended.  The [height] prop is accepted and not forwarded: two
    renders that differ only in [height] have the same outcome. *)
Theorem C5_height_ignored {Height : Type}
    (parse : JsValue -> Completion JsValue)
    (c : string) (h1 h2 : option Height) :
  ModelTradeRenderer parse {| content := c; height := h1 |}
  = ModelTradeRenderer parse {| content := c; height := h2 |}.
Proof. apply render_content_only. reflexivity. Qed.

(** C6.  In every rendered tree the chart is given the string ["90%"] as
    its [height]. *)
Theorem C6_chart_height_constant {Height : Type}
    (parse : JsValue -> Completion JsValue)
    (props : ModelTradeRendererProps Height) (out : ReactNode) :
  ModelTradeRenderer parse props = Normal out ->
  List.map (prop "height") (chart_props out) = [Some (JsString "90%")].
Proof.
  intros Hr.
  apply render_normal_inv in Hr as (envelope & parsedData & _ & _ & _ & _ & ->).
  reflexivity.
Qed.

Lemma C6_chart_height_constant_witness :
  List.map (prop "height")
           (chart_props (view (JsString "T") truncated_dataset))
  = [Some (JsString "90%")].
Proof.
  apply (C6_chart_height_constant Lenient.parse (sized_props truncated_content)).
  vm_compute. reflexivity.
Defined.



(** C8.  Two renders with the same content have the same outcome, and
    through the [memo] wrapper every pass of a mounted component shows
    what the component itself returns on the props of that pass: the
    wrapper saves calls and changes no output. *)
Theorem C8_deterministic_under_memo {Height : Type} `{EqDecision Height}
    (parse : JsValue -> Completion JsValue)
    (p q : ModelTradeRendererProps Height)
    (ps : list (ModelTradeRendererProps Height)) :
  content p = content q ->
  ModelTradeRenderer parse p = ModelTradeRenderer parse q /\
  fst (passes parse None ps) = List.map (ModelTradeRenderer parse) ps /\
  snd (passes parse None ps) <= length ps.
Proof.
  intros Hc. split; [| split].
  - apply render_content_only. exact Hc.
  - apply passes_shown. apply faithful_none.
  - apply passes_calls.
Qed.

(** Three passes with the example of the spec, the last with another
    [height]: the same tree each time, from two calls of the component. *)
Lemma C8_deterministic_under_memo_witness :
  ModelTradeRenderer Lenient.parse (sized_props example_content)
  = ModelTradeRenderer Lenient.parse (props_of example_content) /\
  fst (passes Lenient.parse None
         [sized_props example_content; sized_props example_content;
          props_of example_content])
  = List.map (ModelTradeRenderer Lenient.parse)
         [sized_props example_content; sized_props example_content;
          props_of example_content] /\
  snd (passes Lenient.parse None
         [sized_props example_content; sized_props example_content;
          props_of example_content]) <= 3.
Proof.
  apply (C8_deterministic_under_memo Lenient.parse
           (sized_props example_content) (props_of example_content)
           [sized_props example_content; sized_props example_content;
            props_of example_content]).
  reflexivity.
Defined.

(** C9.  Two contents whose envelopes agree on every field but
    [create_time] have the same outcome. *)
Theorem C9_create_time_unused {Height : Type}
    (parse : JsValue -> Completion JsValue)
    (p q : ModelTradeRendererProps Height)
    (e1 e2 : gmap string JsValue) :
  parse (JsString (content p)) = Normal (JsObject e1) ->
  parse (JsString (content q)) = Normal (JsObject e2) ->
  delete "create_time" e1 = delete "create_time" e2 ->
  ModelTradeRenderer parse p = ModelTradeRenderer parse q.
Proof.
  intros H1 H2 Hsame.
  assert (Hk : forall k : string, k <> "create_time" -> e1 !! k = e2 !! k).
  { intros k Hk.
    rewrite <- (lookup_delete_ne e1 "create_time" k) by congruence.
    rewrite <- (lookup_delete_ne e2 "create_time" k) by congruence.
    rewrite Hsame. reflexivity. }
  rewrite (render_envelope parse p (JsObject e1) H1) by discriminate.
  rewrite (render_envelope parse q (JsObject e2) H2) by discriminate.
  simpl. rewrite (Hk "title"), (Hk "data") by discriminate. reflexivity.
Qed.

Lemma C9_create_time_unused_witness :
  ModelTradeRenderer Lenient.parse (props_of stamped_content)
  = ModelTradeRenderer Lenient.parse (props_of restamped_content).
Proof.
  apply (C9_create_time_unused Lenient.parse
           (props_of stamped_content) (props_of restamped_content)
           (<["create_time" := JsString "2025-10-21 02:57:22"]>
              (<["title" := JsString "T"]> (<["data" := JsString table_text]> ∅)))
           (<["create_time" := JsString "2025-10-22 11:00:00"]>
              (<["title" := JsString "T"]> (<["data" := JsString table_text]> ∅))));
    vm_compute; reflexivity.
Defined.



(** * Further properties of the component *)

(** X1.  The component returns a tree exactly when the first parse step
    returns a value other than [undefined] and [null] and the second
    parse step, given the [data] of that value, returns as well; the tree
    is then [view] of the [title] as read and of the second result. *)
Theorem render_returns_iff {Height : Type}
    (parse : JsValue -> Completion JsValue)
    (props : ModelTradeRendererProps Height) (out : ReactNode) :
  ModelTradeRenderer parse props = Normal out <->
  exists envelope parsedData,
    parse (JsString (content props)) = Normal envelope /\
    envelope <> JsUndefined /\ envelope <> JsNull /\
    parse (get_field envelope "data") = Normal parsedData /\
    out = view (get_field envelope "title") parsedData.
Proof.
  split.
  - apply render_normal_inv.
  - intros (envelope & parsedData & Hp & Hu & Hn & Hq & ->).
    rewrite (render_envelope parse props envelope Hp Hu Hn), Hq.
    reflexivity.
Qed.

(** X2.  The component throws [e] in exactly three ways: the first parse
    step throws [e]; or the first parse step answers [null] or
    [undefined] and [e] is the [TypeError] of the destructuring; or the
    second parse step throws [e].  Nothing is caught and nothing else is
    thrown. *)
Theorem render_throws_iff {Height : Type}
    (parse : JsValue -> Completion JsValue)
    (props : ModelTradeRendererProps Height) (e : JsError) :
  ModelTradeRenderer parse props = Throw e <->
  parse (JsString (content props)) = Throw e \/
  (e = TypeError /\
   (parse (JsString (content props)) = Normal JsNull \/
    parse (JsString (content props)) = Normal JsUndefined)) \/
  (exists envelope,
     parse (JsString (content props)) = Normal envelope /\
     envelope <> JsUndefined /\ envelope <> JsNull /\
     parse (get_field envelope "data") = Throw e).
Proof.
  unfold ModelTradeRenderer.
  destruct (parse (JsString (content props))) as [envelope | e0] eqn:Hp; simpl.
  - destruct (destructure_title_data envelope) as [[title data] | e1] eqn:Hd; simpl.
    + apply destructure_inv in Hd as (Hu & Hn & -> & ->).
      destruct (parse (get_field envelope "data")) as [parsedData | e2] eqn:Hq;
        simpl.
      * split; [discriminate |].
        intros [H | [[_ [H | H]] | (v & H & _ & _ & Hv)]]; congruence.
      * split.
        -- intros [= <-]. right. right. exists envelope. auto.
        -- intros [H | [[_ [H | H]] | (v & H & _ & _ & Hv)]]; congruence.
    + assert (Hnullish : envelope = JsUndefined \/ envelope = JsNull).
      { destruct envelope; simpl in Hd; try discriminate; auto. }
      assert (He1 : e1 = TypeError).
      { rewrite (destructure_nullish envelope Hnullish) in Hd. congruence. }
      subst e1. split.
      * intros [= <-]. right. left. split; [reflexivity |].
        destruct Hnullish as [-> | ->]; auto.
      * intros [H | [[-> _] | (v & H & Hu & Hn & _)]];
          [discriminate | reflexivity |].
        injection H as <-. destruct Hnullish; contradiction.
  - split.
    + intros [= <-]. left. reflexivity.
    + intros [H | [[_ [H | H]] | (v & H & _)]]; try discriminate.
      injection H as ->. reflexivity.
Qed.

(** X3.  With a parser that never throws, the only way the component
    fails is the [TypeError] of destructuring a [null] or [undefined]
    envelope. *)
Theorem tolerant_failure_is_nullish {Height : Type}
    (parse : JsValue -> Completion JsValue)
    (props : ModelTradeRendererProps Height) (e : JsError) :
  tolerant parse ->
  (ModelTradeRenderer parse props = Throw e <->
   e = TypeError /\
   (parse (JsString (content props)) = Normal JsNull \/
    parse (JsString (content props)) = Normal JsUndefined)).
Proof.
  intros Htol. rewrite render_throws_iff. split.
  - intros [H | [H | (envelope & _ & _ & _ & H)]].
    + destruct (Htol (JsString (content props))) as [v Hv]. congruence.
    + exact H.
    + destruct (Htol (get_field envelope "data")) as [v Hv]. congruence.
  - intros H. right. left. exact H.
Qed.

Lemma tolerant_failure_is_nullish_witness :
  ModelTradeRenderer Lenient.parse (props_of null_content) = Throw TypeError <->
  TypeError = TypeError /\
  (Lenient.parse (JsString (content (props_of null_content))) = Normal JsNull \/
   Lenient.parse (JsString (content (props_of null_content))) = Normal JsUndefined).
Proof.
  apply (tolerant_failure_is_nullish Lenient.parse (props_of null_content) TypeError).
  exact lenient_tolerant.
Defined.

(** X4.  Of the envelope the component reads [title] and [data] and
    nothing else: two contents whose envelopes agree on these two have
    the same outcome, whatever other fields they carry and whatever kind
    of value each envelope is. *)
Theorem only_title_and_data_read {Height : Type}
    (parse : JsValue -> Completion JsValue)
    (p q : ModelTradeRendererProps Height) (e1 e2 : JsValue) :
  parse (JsString (content p)) = Normal e1 ->
  parse (JsString (content q)) = Normal e2 ->
  e1 <> JsUndefined -> e1 <> JsNull ->
  e2 <> JsUndefined -> e2 <> JsNull ->
  get_field e1 "title" = get_field e2 "title" ->
  get_field e1 "data" = get_field e2 "data" ->
  ModelTradeRenderer parse p = ModelTradeRenderer parse q.
Proof.
  intros H1 H2 Hu1 Hn1 Hu2 Hn2 Ht Hd.
  rewrite (render_envelope parse p e1 H1 Hu1 Hn1).
  rewrite (render_envelope parse q e2 H2 Hu2 Hn2).
  rewrite Ht, Hd. reflexivity.
Qed.

Lemma only_title_and_data_read_witness :
  ModelTradeRenderer Lenient.parse (props_of example_content)
  = ModelTradeRenderer Lenient.parse (props_of crowded_content).
Proof.
  apply (only_title_and_data_read Lenient.parse
           (props_of example_content) (props_of crowded_content)
           (JsObject (<["title" := JsString "T"]>
                        (<["data" := JsString table_text]> ∅)))
           (JsObject (<["unit" := JsString "USD"]>
                        (<["data" := JsString table_text]>
                           (<["create_time" := JsString "2025-10-21 02:57:22"]>
                              (<["title" := JsString "T"]> ∅))))));
    try discriminate; vm_compute; reflexivity.
Defined.

(** X5.  An envelope that is a boolean, a number, a string or an array
    is destructured without error: [title] and [data] are both
    [undefined], so the heading holds [undefined] and the second parse
    step is given [undefined]. *)
Theorem non_object_envelope {Height : Type}
    (parse : JsValue -> Completion JsValue)
    (props : ModelTradeRendererProps Height) (envelope : JsValue) :
  parse (JsString (content props)) = Normal envelope ->
  envelope <> JsUndefined -> envelope <> JsNull ->
  (forall fields, envelope <> JsObject fields) ->
  ModelTradeRenderer parse props
  = bind (parse JsUndefined)
         (fun parsedData => Normal (view JsUndefined parsedData)).
Proof.
  intros Hp Hu Hn Hobj.
  rewrite (render_envelope parse props envelope Hp Hu Hn).
  destruct envelope; try reflexivity.
  exfalso. exact (Hobj _ eq_refl).
Qed.

(** The text [[1,2]] is an array, not an envelope. *)
Lemma non_object_envelope_witness :
  ModelTradeRenderer Lenient.parse (props_of array_content)
  = bind (Lenient.parse JsUndefined)
         (fun parsedData => Normal (view JsUndefined parsedData)).
Proof.
  apply (non_object_envelope Lenient.parse (props_of array_content)
           (JsArray [JsNumber 1%float; JsNumber 2%float]));
    try discriminate; vm_compute; reflexivity.
Defined.

(** X6.  Every tree the component returns has the same shape: a root
    with two children, one heading with one child, one chart whose props
    are [data] and [height] and no other, and three paragraphs. *)
Theorem rendered_tree_shape {Height : Type}
    (parse : JsValue -> Completion JsValue)
    (props : ModelTradeRendererProps Height) (out : ReactNode) :
  ModelTradeRenderer parse props = Normal out ->
  length (children_of out) = 2 /\
  length (select (has_tag "h3") out) = 1 /\
  length (heading out) = 1 /\
  List.map (List.map fst) (chart_props out) = [["data"; "height"]] /\
  length (select (has_tag "p") out) = 3.
Proof.
  intros Hr.
  apply render_normal_inv in Hr as (envelope & parsedData & _ & _ & _ & _ & ->).
  repeat split; reflexivity.
Qed.

Lemma rendered_tree_shape_witness :
  length (children_of (view (JsString "T") truncated_dataset)) = 2 /\
  length (select (has_tag "h3") (view (JsString "T") truncated_dataset)) = 1 /\
  length (heading (view (JsString "T") truncated_dataset)) = 1 /\
  List.map (List.map fst) (chart_props (view (JsString "T") truncated_dataset))
  = [["data"; "height"]] /\
  length (select (has_tag "p") (view (JsString "T") truncated_dataset)) = 3.
Proof.
  apply (rendered_tree_shape Lenient.parse (props_of truncated_content)).
  vm_compute. reflexivity.
Defined.

(** X7.  The title reaches the heading only and the data reaches the
    chart only: two rendered trees whose envelopes agree on [title] have
    the same heading, two whose envelopes agree on [data] give the chart
    the same props, and the lower region is the same in both. *)
Theorem heading_and_chart_independent {Height : Type}
    (parse : JsValue -> Completion JsValue)
    (p q : ModelTradeRendererProps Height)
    (e1 e2 : JsValue) (out1 out2 : ReactNode) :
  parse (JsString (content p)) = Normal e1 ->
  parse (JsString (content q)) = Normal e2 ->
  ModelTradeRenderer parse p = Normal out1 ->
  ModelTradeRenderer parse q = Normal out2 ->
  (get_field e1 "title" = get_field e2 "title" -> heading out1 = heading out2) /\
  (get_field e1 "data" = get_field e2 "data" -> chart_props out1 = chart_props out2) /\
  disclaimer_region out1 = disclaimer_region out2.
Proof.
  intros H1 H2 Hr1 Hr2.
  apply render_normal_inv in Hr1 as (v1 & d1 & Hv1 & _ & _ & Hd1 & ->).
  apply render_normal_inv in Hr2 as (v2 & d2 & Hv2 & _ & _ & Hd2 & ->).
  assert (v1 = e1) by congruence. assert (v2 = e2) by congruence.
  subst v1 v2.
  rewrite !heading_view, !chart_props_view, !disclaimer_region_view.
  repeat split.
  - intros ->. reflexivity.
  - intros Hd. rewrite Hd in Hd1.
    assert (d1 = d2) by congruence. subst d2. reflexivity.
Qed.

(** The example under another title: another heading, the same chart. *)
Lemma heading_and_chart_independent_witness :
  (get_field example_envelope "title" = get_field retitled_envelope "title" ->
   heading (view (JsString "T") example_dataset)
   = heading (view (JsString "Portfolio Value History") example_dataset)) /\
  (get_field example_envelope "data" = get_field retitled_envelope "data" ->
   chart_props (view (JsString "T") example_dataset)
   = chart_props (view (JsString "Portfolio Value History") example_dataset)) /\
  disclaimer_region (view (JsString "T") example_dataset)
  = disclaimer_region (view (JsString "Portfolio Value History") example_dataset).
Proof.
  apply (heading_and_chart_independent Lenient.parse
           (props_of example_content) (props_of retitled_content));
    vm_compute; reflexivity.
Defined.
